(** * Student speaking-assessment report: page script and report endpoint

    A shallow embedding of [public/script.js] (feedback lookup, colour
    classes, progress bars, the DOM updates of [displayStudentData], the two
    charts, the loader with its [try]/[catch]) and of the
    [GET /api/student-report] handler of [server.js].

    Scores are JavaScript numbers.  They are modelled by the rationals [Q]:
    every finite binary64 value is a rational, the comparisons [>=] of the
    script agree with the comparisons of the exact values, and
    [Number.prototype.toFixed] is defined by ECMAScript on the exact value.
    The arithmetic of [updateProgressBar] is carried out exactly.  [NaN] and
    the infinities are not modelled. *)

From Stdlib Require Import QArith Qround Qabs Lqa Ascii.
From stdpp Require Import gmap strings pretty list.

Local Open Scope Q_scope.

(** ** JavaScript preliminaries *)

Module JS.

(** The exceptions the modelled code can raise or receive. *)
Inductive Error : Type :=
| TypeError                    (* property access on [undefined] or [null] *)
| SyntaxError                  (* [JSON.parse], [response.json()] *)
| Error_ (message : string).   (* [new Error(message)], I/O failures *)

Inductive completion (A : Type) : Type :=
| Normal (a : A)
| Throw (e : Error).
Arguments Normal {A} a.
Arguments Throw {A} e.

(** [x >= y] and [x < y] on numbers. *)
Definition geb (x y : Q) : bool := Qle_bool y x.
Definition ltb (x y : Q) : bool := negb (Qle_bool y x).

(** The property names every object literal inherits from
    [Object.prototype] (ECMA-262, with the Annex B accessors of browsers).
    Reading one of them from a plain object yields a function or an object,
    never [undefined]. *)
Definition Object_prototype : list string :=
  [ "constructor"; "hasOwnProperty"; "isPrototypeOf";
    "propertyIsEnumerable"; "toLocaleString"; "toString"; "valueOf";
    "__proto__"; "__defineGetter__"; "__defineSetter__";
    "__lookupGetter__"; "__lookupSetter__" ].

End JS.
Import JS.

Declare Scope js_scope.
Delimit Scope js_scope with js.
Notation "x >=? y" := (geb x y) (at level 70, no associativity) : js_scope.
Notation "x <? y" := (ltb x y) (at level 70, no associativity) : js_scope.
Local Open Scope js_scope.

(** ** Feedback logic system ([getFeedback]) *)

(** One inner object of [feedbackMap]: five messages under five keys. *)
Record Messages : Type := {
  excellent : string;
  veryGood : string;
  good : string;
  moderate : string;
  needsImprovement : string
}.

(** The own properties of [feedbackMap]. *)
Definition feedbackMap : gmap string Messages :=
  <[ "overall" := {|
       excellent := "Excellent performance! You demonstrate exceptional speaking abilities with strong control across all areas.";
       veryGood := "Very good performance! You show strong speaking skills with minor areas for improvement.";
       good := "Good performance with noticeable competence, though some inaccuracies are present.";
       moderate := "Moderate performance. You can communicate but need significant improvement in several areas.";
       needsImprovement := "Needs improvement. Focus on building fundamental speaking skills across all areas." |} ]>
  (<[ "pronunciation" := {|
       excellent := "Excellent pronunciation with clear and accurate articulation of sounds.";
       veryGood := "Very good pronunciation with occasional minor errors that don't impede understanding.";
       good := "Good pronunciation but some sounds need improvement for better clarity.";
       moderate := "Pronunciation needs work; some words are unclear and may affect comprehension.";
       needsImprovement := "Significant pronunciation challenges affecting overall clarity and understanding." |} ]>
  (<[ "fluency" := {|
       excellent := "Excellent fluency with natural speech flow and minimal hesitation.";
       veryGood := "Very good fluency with smooth delivery and only occasional pauses.";
       good := "Good fluency though some hesitation and unnatural pauses are noticeable.";
       moderate := "Fluency needs improvement; frequent hesitation affects the natural flow of speech.";
       needsImprovement := "Significant fluency issues with many pauses and disrupted speech flow." |} ]>
  (<[ "vocabulary" := {|
       excellent := "Excellent vocabulary range with precise and sophisticated word choices.";
       veryGood := "Very good vocabulary with appropriate word selection and variety.";
       good := "Good vocabulary but limited range; occasional difficulty expressing complex ideas.";
       moderate := "Vocabulary needs expansion; basic words used, limiting expression.";
       needsImprovement := "Limited vocabulary significantly restricts communication ability." |} ]>
  (<[ "grammar" := {|
       excellent := "Excellent grammatical accuracy with sophisticated sentence structures.";
       veryGood := "Very good grammar with minor errors that don't impede communication.";
       good := "Good grammar but some errors in complex structures are noticeable.";
       moderate := "Grammar needs improvement; errors are frequent and may affect clarity.";
       needsImprovement := "Significant grammatical issues affecting overall comprehension." |} ]>
  ∅)))).

(** What [feedbackMap[skillType]] evaluates to: one of the five inner
    objects, something inherited from [Object.prototype], or [undefined]. *)
Inductive Property : Type :=
| Own (messages : Messages)
| Inherited
| Undefined.

Definition feedbackMap_get (skillType : string) : Property :=
  match feedbackMap !! skillType with
  | Some messages => Own messages
  | None =>
      if bool_decide (skillType ∈ Object_prototype) then Inherited
      else Undefined
  end.

(** The five keys of an inner object; they are the performance tiers. *)
Inductive PerformanceTier : Type :=
| Excellent | VeryGood | Good | Moderate | NeedsImprovement.

Definition field (t : PerformanceTier) : Messages → string :=
  match t with
  | Excellent => excellent
  | VeryGood => veryGood
  | Good => good
  | Moderate => moderate
  | NeedsImprovement => needsImprovement
  end.

(** [messages.key].  A string is [Some s], [undefined] is [None]; the
    inherited functions and objects have none of the five keys; reading a
    property of [undefined] throws. *)
Definition member (messages : Property) (key : PerformanceTier)
  : completion (option string) :=
  match messages with
  | Own m => Normal (Some (field key m))
  | Inherited => Normal None
  | Undefined => Throw TypeError
  end.

(** [function getFeedback(score, skillType = 'overall')]; an omitted
    argument is [None]. *)
Definition getFeedback (score : Q) (skillType : option string)
  : completion (option string) :=
  let skillType := default "overall" skillType in
  let messages := feedbackMap_get skillType in
  if score >=? 8.0 then member messages Excellent
  else if score >=? 7.0 then member messages VeryGood
  else if score >=? 6.0 then member messages Good
  else if score >=? 5.0 then member messages Moderate
  else member messages NeedsImprovement.

(** The key chosen by the cascade of [getFeedback] (script lines 73-77). *)
Definition classifyScore (score : Q) : PerformanceTier :=
  if score >=? 8.0 then Excellent
  else if score >=? 7.0 then VeryGood
  else if score >=? 6.0 then Good
  else if score >=? 5.0 then Moderate
  else NeedsImprovement.

(** ** Colour coding system ([getScoreClass]) *)

Definition getScoreClass (score : Q) : string :=
  if score >=? 8.0 then "score-excellent"
  else if score >=? 7.0 then "score-good"
  else if score >=? 6.0 then "score-fair"
  else "score-poor".

(** ** The assessment record *)

Record Skills : Type := {
  pronunciation : Q;
  fluency : Q;
  vocabulary : Q;
  grammar : Q
}.

Record Data : Type := {
  studentId : string;
  studentName : string;
  testDate : string;
  overallScore : Q;
  skills : Skills
}.

(** ** The page: DOM elements, charts, console and alerts *)

(** The attributes of an element the script writes.  [style_width] is the
    percentage [p] of the CSS value [p%], [None] while the script has not set
    it. *)
Record Element : Type := {
  textContent : string;
  className : string;
  style_width : option Q
}.

Definition with_textContent (v : string) (el : Element) : Element :=
  {| textContent := v; className := className el;
     style_width := style_width el |}.
Definition with_className (v : string) (el : Element) : Element :=
  {| textContent := textContent el; className := v;
     style_width := style_width el |}.
Definition with_style_width (p : Q) (el : Element) : Element :=
  {| textContent := textContent el; className := className el;
     style_width := Some p |}.

(** What [new Chart(ctx, config)] is given: the canvas it draws on and the
    data-carrying part of its configuration (colours are left out). *)
Record Chart : Type := {
  canvas : string;
  chart_type : string;
  labels : list string;
  dataset_label : string;
  data : list Q;
  scale_max : Q
}.

Record Page : Type := {
  dom : gmap string Element;
  charts : list Chart;
  console : list (string * Error);
  alerts : list string
}.

Definition with_dom (f : gmap string Element → gmap string Element)
    (p : Page) : Page :=
  {| dom := f (dom p); charts := charts p;
     console := console p; alerts := alerts p |}.

(** ** Statements of the script: a state and exception monad over [Page].
    A throw keeps the writes made before it. *)

Definition M (A : Type) : Type := Page → Page * completion A.

Definition ret {A} (a : A) : M A := λ p, (p, Normal a).
Definition throw {A} (e : Error) : M A := λ p, (p, Throw e).
Definition bind {A B} (m : M A) (k : A → M B) : M B :=
  λ p, match m p with
       | (p', Normal a) => k a p'
       | (p', Throw e) => (p', Throw e)
       end.
Definition try_catch {A} (body : M A) (handler : Error → M A) : M A :=
  λ p, match body p with
       | (p', Normal a) => (p', Normal a)
       | (p', Throw e) => handler e p'
       end.
Definition lift {A} (c : completion A) : M A := λ p, (p, c).

Notation "'let*' x := m 'in' k" := (bind m (λ x, k))
  (at level 10, x name, m at level 100, k at level 200,
   format "'[' 'let*'  x  :=  m  'in' ']' '//' k") : js_scope.
Notation "m ;; k" := (bind m (λ _, k))
  (at level 100, k at level 200, right associativity,
   format "'[' m  ;; ']' '//' k") : js_scope.

(** [document.getElementById(id).attribute = v]: a [TypeError] when there is
    no such element, since [getElementById] then returns [null]. *)
Definition set_attribute (set : Element → Element) (id : string) : M unit :=
  λ p, match dom p !! id with
       | Some _ => (with_dom (alter set id) p, Normal tt)
       | None => (p, Throw TypeError)
       end.

Definition set_textContent (id v : string) : M unit :=
  set_attribute (with_textContent v) id.
Definition set_className (id v : string) : M unit :=
  set_attribute (with_className v) id.

(** [document.getElementById(id).getContext('2d')]; the elements
    [radarChart] and [barChart] of the page are canvases. *)
Definition getContext (id : string) : M string :=
  λ p, match dom p !! id with
       | Some _ => (p, Normal id)
       | None => (p, Throw TypeError)
       end.

Definition new_Chart (ctx : string) (type : string) (lbls : list string)
    (dataset : string) (values : list Q) : M unit :=
  λ p, ({| dom := dom p;
           charts := charts p ++
             [ {| canvas := ctx; chart_type := type; labels := lbls;
                  dataset_label := dataset; data := values;
                  scale_max := 9 |} ];
           console := console p; alerts := alerts p |}, Normal tt).

Definition console_error (message : string) (error : Error) : M unit :=
  λ p, ({| dom := dom p; charts := charts p;
           console := console p ++ [(message, error)];
           alerts := alerts p |}, Normal tt).

Definition alert (message : string) : M unit :=
  λ p, ({| dom := dom p; charts := charts p; console := console p;
           alerts := alerts p ++ [message] |}, Normal tt).

(** ** Progress bars ([updateProgressBar]) *)

Definition percentage (score : Q) : Q := (score / 9) * 100.

Definition updateProgressBar (elementId : string) (score : Q) : M unit :=
  set_attribute (with_style_width (percentage score)) elementId.

(** ** Number formatting ([Number.prototype.toFixed]) *)

Fixpoint zeros (n : nat) : string :=
  match n with
  | O => ""
  | S n => String "0"%char (zeros n)
  end.

(** The digits of [n / 10^f]: the decimal representation of [n], padded
    with zeros to more than [f] digits, with a point before the last [f]
    (steps 11.b and 11.c of [toFixed]). *)
Definition fixed_digits (n : N) (f : nat) : string :=
  let m := pretty n in
  if decide (f = 0%nat) then m
  else
    let k := String.length m in
    let m := if decide (k ≤ f)%nat then zeros (f + 1 - k) +:+ m else m in
    let k := if decide (k ≤ f)%nat then (f + 1)%nat else k in
    let a := String.substring 0 (k - f) m in
    let b := String.substring (k - f) f m in
    a +:+ "." +:+ b.

(** The integer [n] for which [n / 10^f - x] is closest to zero, the larger
    one when there are two (step 11.a of [toFixed]; [x] is not negative). *)
Definition nearest (x : Q) (f : nat) : N :=
  Z.to_N (Qfloor (x * inject_Z (10 ^ Z.of_nat f) + 1 / 2)).

Section Script.

(** [Number::toString] of ECMA-262.  [toFixed] falls back on it for
    magnitudes of 10^21 and more, where it prints exponent notation whose
    digits depend on the binary64 representation; it is a parameter of the
    development. *)
Variable Number_toString : Q → string.

(** [x.toFixed(fractionDigits)], for [fractionDigits] between 0 and 100 (the
    script passes 1; other arguments raise a [RangeError]). *)
Definition toFixed (x : Q) (fractionDigits : nat) : string :=
  let f := fractionDigits in
  let s := if x <? 0 then "-" else "" in
  let x := if x <? 0 then - x else x in
  if x >=? 10 ^ 21 then s +:+ Number_toString x
  else
    let n := nearest x f in
    s +:+ fixed_digits n f.

(** ** Chart creation ([createCharts]) *)

Definition skillLabels : list string :=
  ["Pronunciation"; "Fluency"; "Vocabulary"; "Grammar"].

Definition skillValues (skills : Skills) : list Q :=
  [pronunciation skills; fluency skills; vocabulary skills; grammar skills].

Definition createCharts (skills : Skills) : M unit :=
  let* radarCtx := getContext "radarChart" in
  new_Chart radarCtx "radar" skillLabels "Skills Assessment"
    (skillValues skills) ;;
  let* barCtx := getContext "barChart" in
  new_Chart barCtx "bar" skillLabels "Score" (skillValues skills).

(** ** Data display ([displayStudentData]) *)

(** Assigning a value to [textContent]: [undefined] becomes the empty
    text. *)
Definition text (v : option string) : string := default "" v.

Definition displayStudentData (data : Data) : M unit :=
  set_textContent "studentName" (studentName data) ;;
  set_textContent "testDate" (testDate data) ;;
  let overallScore := overallScore data in
  set_textContent "overallScore" (toFixed overallScore 1) ;;
  set_className "overallScore"
    ("score-value " +:+ getScoreClass overallScore) ;;
  let* overallFeedbackText :=
    lift (getFeedback overallScore (Some "overall")) in
  set_textContent "overallDescription" (text overallFeedbackText) ;;
  set_textContent "overallFeedback" (text overallFeedbackText) ;;
  let skills := skills data in
  let pronScore := pronunciation skills in
  set_textContent "pronunciationScore" (toFixed pronScore 1) ;;
  set_className "pronunciationScore"
    ("skill-score " +:+ getScoreClass pronScore) ;;
  updateProgressBar "pronunciationProgress" pronScore ;;
  let* feedback := lift (getFeedback pronScore (Some "pronunciation")) in
  set_textContent "pronunciationFeedback" (text feedback) ;;
  let fluencyScore := fluency skills in
  set_textContent "fluencyScore" (toFixed fluencyScore 1) ;;
  set_className "fluencyScore"
    ("skill-score " +:+ getScoreClass fluencyScore) ;;
  updateProgressBar "fluencyProgress" fluencyScore ;;
  let* feedback := lift (getFeedback fluencyScore (Some "fluency")) in
  set_textContent "fluencyFeedback" (text feedback) ;;
  let vocabScore := vocabulary skills in
  set_textContent "vocabularyScore" (toFixed vocabScore 1) ;;
  set_className "vocabularyScore"
    ("skill-score " +:+ getScoreClass vocabScore) ;;
  updateProgressBar "vocabularyProgress" vocabScore ;;
  let* feedback := lift (getFeedback vocabScore (Some "vocabulary")) in
  set_textContent "vocabularyFeedback" (text feedback) ;;
  let grammarScore := grammar skills in
  set_textContent "grammarScore" (toFixed grammarScore 1) ;;
  set_className "grammarScore"
    ("skill-score " +:+ getScoreClass grammarScore) ;;
  updateProgressBar "grammarProgress" grammarScore ;;
  let* feedback := lift (getFeedback grammarScore (Some "grammar")) in
  set_textContent "grammarFeedback" (text feedback) ;;
  createCharts skills.

(** ** Data loading ([loadStudentData]) *)

(** What the script uses of a [fetch] response: its status, and what
    [response.json()] resolves to or rejects with. *)
Record Response : Type := {
  status : nat;
  json : completion Data
}.

(** [response.ok]: the status is in the range 200-299. *)
Definition ok (response : Response) : bool :=
  bool_decide (200 ≤ status response ≤ 299)%nat.

(** The settled promise of [fetch('/api/student-report')]. *)
Inductive Fetched : Type :=
| fulfilled (response : Response)
| rejected (reason : Error).

Definition await_fetch (fetched : Fetched) : M Response :=
  match fetched with
  | fulfilled response => ret response
  | rejected reason => throw reason
  end.

Definition loadStudentData (fetched : Fetched) : M unit :=
  try_catch
    (let* response := await_fetch fetched in
     (if negb (ok response) then throw (Error_ "Failed to fetch data")
      else ret tt) ;;
     let* data := lift (json response) in
     displayStudentData data)
    (λ error,
      console_error "Error loading student data:" error ;;
      alert "Failed to load student data. Please make sure the server is running on port 3000.").

End Script.

(** ** The report endpoint of the server ([GET /api/student-report]) *)

Module Server.

(** A call that returns a value or throws; of a thrown error the handler
    reads the message only. *)
Inductive outcome (A : Type) : Type :=
| returned (a : A)
| threw (message : string).
Arguments returned {A} a.
Arguments threw {A} message.

Inductive Body (J : Type) : Type :=
| report (studentData : J)
| failure (error message : string).
Arguments report {J} studentData.
Arguments failure {J} error message.

Record Reply (J : Type) : Type := {
  status : nat;
  body : Body J;
  console : list (string * string)
}.
Arguments status {J} _.
Arguments body {J} _.
Arguments console {J} _.

Section Handler.
Context {J : Type}.
(** [JSON.parse] on the contents of [data.json]. *)
Variable JSON_parse : string → outcome J.

Definition failed (message : string) : Reply J :=
  {| status := 500;
     body := failure "Failed to load student data" message;
     console := [("Error reading data:", message)] |}.

(** The handler, given what [fs.readFileSync(dataPath, 'utf8')] does. *)
Definition student_report (readFileSync : outcome string) : Reply J :=
  match readFileSync with
  | returned data =>
      match JSON_parse data with
      | returned studentData =>
          {| status := 200; body := report studentData; console := [] |}
      | threw message => failed message
      end
  | threw message => failed message
  end.
End Handler.

End Server.

(** ** Reading a displayed score back *)

(** The value of a decimal numeral [-]digits[.digits], as the round-trip
    property of the specification re-parses a formatted score.  [scan] keeps
    the digits read so far as an integer and counts those after the point. *)
Definition digit (c : ascii) : option N :=
  let n := N_of_ascii c in
  if decide (48 ≤ n ≤ 57)%N then Some (n - 48)%N else None.



(** ** Vocabulary of the properties *)

(** The five categories of the table. *)
Definition categories : list string :=
  ["overall"; "pronunciation"; "fluency"; "vocabulary"; "grammar"].

(** A score of each tier. *)
Definition sample (t : PerformanceTier) : Q :=
  match t with
  | Excellent => 8.5
  | VeryGood => 7.5
  | Good => 6.5
  | Moderate => 5.5
  | NeedsImprovement => 4.5
  end.

(** The elements the script looks up by id. *)
Definition element_ids : list string :=
  [ "studentName"; "testDate";
    "overallScore"; "overallDescription"; "overallFeedback";
    "pronunciationScore"; "pronunciationProgress"; "pronunciationFeedback";
    "fluencyScore"; "fluencyProgress"; "fluencyFeedback";
    "vocabularyScore"; "vocabularyProgress"; "vocabularyFeedback";
    "grammarScore"; "grammarProgress"; "grammarFeedback";
    "radarChart"; "barChart" ].

(** A page that has all of them. *)
Definition complete (p : Page) : Prop :=
  ∀ id, id ∈ element_ids → is_Some (dom p !! id).

(** Attribute [attr] of element [id] reads [v]. *)
Definition shows {A} (p : Page) (id : string) (attr : Element → A) (v : A)
  : Prop :=
  attr <$> dom p !! id = Some v.

(** An element the script has not touched. *)
Definition blank : Element :=
  {| textContent := ""; className := ""; style_width := None |}.

(** A page with the elements of the script, nothing written yet. *)
Definition blank_page : Page :=
  {| dom := list_to_map ((λ id, (id, blank)) <$> element_ids);
     charts := []; console := []; alerts := [] |}.

(** The (label, value) pairs a chart plots. *)
Definition series (chart : Chart) : list (string * Q) :=
  zip (labels chart) (data chart).

(** The failure [loadStudentData] catches, if the fetch gives one: a
    rejected request, a status outside 200-299, or a body that does not
    parse. *)
Definition retrieval_error (fetched : Fetched) : option Error :=
  match fetched with
  | rejected reason => Some reason
  | fulfilled response =>
      if ok response then
        match json response with
        | Normal _ => None
        | Throw e => Some e
        end
      else Some (Error_ "Failed to fetch data")
  end.

(** An instance of [Number_toString] for scores below 10^21, where [toFixed]
    does not call it. *)
Definition no_exponent : Q → string := λ _, "".


(** The tiers from worst to best. *)
Definition rank (t : PerformanceTier) : nat :=
  match t with
  | NeedsImprovement => 0
  | Moderate => 1
  | Good => 2
  | VeryGood => 3
  | Excellent => 4
  end.

(** The colour class that goes with a tier. *)
Definition class_of (t : PerformanceTier) : string :=
  match t with
  | Excellent => "score-excellent"
  | VeryGood => "score-good"
  | Good => "score-fair"
  | Moderate | NeedsImprovement => "score-poor"
  end.

(** [p'] differs from [p] at most in the elements [ids], which it still
    has, and in charts added at the end: no element appears or disappears,
    the console and the alerts are the same. *)
Definition frame (ids : list string) (p p' : Page) : Prop :=
  (∀ id, is_Some (dom p' !! id) ↔ is_Some (dom p !! id)) ∧
  (∀ id, id ∉ ids → dom p' !! id = dom p !! id) ∧
  (∃ new, charts p' = charts p ++ new) ∧
  console p' = console p ∧
  alerts p' = alerts p.

(** A statement that looks up the elements [needs] and writes to the
    elements [writes]: it completes when the page has all of [needs], and
    otherwise throws a [TypeError], one of them missing; either way the page
    it leaves is within [frame writes]. *)
Definition behaves {A} (needs writes : list string) (m : M A) : Prop :=
  ∀ p,
    frame writes p (m p).1 ∧
    match (m p).2 with
    | Normal _ => ∀ id, id ∈ needs → is_Some (dom p !! id)
    | Throw e => e = TypeError ∧ ∃ id, id ∈ needs ∧ dom p !! id = None
    end.

(** The two charts [createCharts] makes of a record's skills. *)
Definition radar_chart (skills : Skills) : Chart :=
  {| canvas := "radarChart"; chart_type := "radar"; labels := skillLabels;
     dataset_label := "Skills Assessment"; data := skillValues skills;
     scale_max := 9 |}.



(** The record of the README and of the comment in [server.js]. *)
Definition john_doe : Data :=
  {| studentId := "STU001"; studentName := "John Doe";
     testDate := "2024-12-20"; overallScore := 7.5;
     skills := {| pronunciation := 8.0; fluency := 7.5;
                  vocabulary := 7.0; grammar := 7.5 |} |}.

(** * Properties *)

(** ** Comparisons *)

Lemma geb_true (x y : Q) : (x >=? y) = true ↔ y <= x.
Proof. unfold geb. apply Qle_bool_iff. Qed.

Lemma geb_false (x y : Q) : (x >=? y) = false ↔ x < y.
Proof.
  unfold geb. split.
  - intros E. apply Qnot_le_lt. intros H. apply Qle_bool_iff in H. congruence.
  - intros H. destruct (Qle_bool y x) eqn:E; [|done].
    apply Qle_bool_iff in E. lra.
Qed.


Lemma ltb_false (x y : Q) : (x <? y) = false ↔ y <= x.
Proof. unfold ltb. rewrite negb_false_iff. apply geb_true. Qed.

(** Case analysis on every threshold test of a cascade, leaving the tests as
    inequalities in the context. *)
Ltac thresholds :=
  repeat match goal with
    | |- context [ ?x >=? ?y ] =>
        let E := fresh "E" in
        destruct (x >=? y) eqn:E;
        [ apply geb_true in E | apply geb_false in E ]
    end.

(** ** The feedback cascade *)

(** [getFeedback] reads, from whatever [feedbackMap[skillType]] is, the key
    that [classifyScore] names. *)
Lemma getFeedback_classifyScore (score : Q) (skillType : option string) :
  getFeedback score skillType
  = member (feedbackMap_get (default "overall" skillType))
      (classifyScore score).
Proof. unfold getFeedback, classifyScore. by thresholds. Qed.

Lemma getFeedback_Some (score : Q) (skillType : string) :
  getFeedback score (Some skillType)
  = member (feedbackMap_get skillType) (classifyScore score).
Proof. apply getFeedback_classifyScore. Qed.

Lemma classifyScore_Excellent (s : Q) : classifyScore s = Excellent ↔ 8 <= s.
Proof. unfold classifyScore. thresholds; split; intros; (done || lra). Qed.

Lemma classifyScore_VeryGood (s : Q) :
  classifyScore s = VeryGood ↔ 7 <= s ∧ s < 8.
Proof. unfold classifyScore. thresholds; split; intros; (done || lra). Qed.

Lemma classifyScore_Good (s : Q) : classifyScore s = Good ↔ 6 <= s ∧ s < 7.
Proof. unfold classifyScore. thresholds; split; intros; (done || lra). Qed.

Lemma classifyScore_Moderate (s : Q) :
  classifyScore s = Moderate ↔ 5 <= s ∧ s < 6.
Proof. unfold classifyScore. thresholds; split; intros; (done || lra). Qed.

Lemma classifyScore_NeedsImprovement (s : Q) :
  classifyScore s = NeedsImprovement ↔ s < 5.
Proof. unfold classifyScore. thresholds; split; intros; (done || lra). Qed.

(** C1.  [classifyScore] is a function on all scores, and each tier is
    returned exactly on its interval: Excellent on [8, ∞), VeryGood on
    [7, 8), Good on [6, 7), Moderate on [5, 6), NeedsImprovement on (-∞, 5);
    the intervals are closed below and open above, so they neither overlap
    nor leave a gap.  In particular 8.0 is Excellent, 7.999 VeryGood, 5.0
    Moderate and 4.999 NeedsImprovement.  The tier is the key that
    [getFeedback] reads. *)
Theorem classifyScore_partition (s : Q) :
  (classifyScore s = Excellent ↔ 8.0 <= s) ∧
  (classifyScore s = VeryGood ↔ 7.0 <= s ∧ s < 8.0) ∧
  (classifyScore s = Good ↔ 6.0 <= s ∧ s < 7.0) ∧
  (classifyScore s = Moderate ↔ 5.0 <= s ∧ s < 6.0) ∧
  (classifyScore s = NeedsImprovement ↔ s < 5.0) ∧
  classifyScore 8.0 = Excellent ∧
  classifyScore 7.999 = VeryGood ∧
  classifyScore 5.0 = Moderate ∧
  classifyScore 4.999 = NeedsImprovement ∧
  ∀ skillType, getFeedback s skillType
    = member (feedbackMap_get (default "overall" skillType)) (classifyScore s).
Proof.
  split_and!; try reflexivity.
  - rewrite classifyScore_Excellent. split; lra.
  - rewrite classifyScore_VeryGood. split; lra.
  - rewrite classifyScore_Good. split; lra.
  - rewrite classifyScore_Moderate. split; lra.
  - rewrite classifyScore_NeedsImprovement. split; lra.
  - apply getFeedback_classifyScore.
Qed.

(** ** The colour classes *)

Lemma getScoreClass_excellent (s : Q) :
  getScoreClass s = "score-excellent" ↔ 8 <= s.
Proof. unfold getScoreClass. thresholds; split; intros; (done || lra). Qed.

Lemma getScoreClass_good (s : Q) :
  getScoreClass s = "score-good" ↔ 7 <= s ∧ s < 8.
Proof. unfold getScoreClass. thresholds; split; intros; (done || lra). Qed.

Lemma getScoreClass_fair (s : Q) :
  getScoreClass s = "score-fair" ↔ 6 <= s ∧ s < 7.
Proof. unfold getScoreClass. thresholds; split; intros; (done || lra). Qed.

Lemma getScoreClass_poor (s : Q) : getScoreClass s = "score-poor" ↔ s < 6.
Proof. unfold getScoreClass. thresholds; split; intros; (done || lra). Qed.

(** C3.  [getScoreClass] is a function on all scores with four classes and
    thresholds of its own: excellent exactly on [8, ∞), good on [7, 8), fair
    on [6, 7), poor on (-∞, 6).  Its partition is not that of the five
    tiers: 5.5 and 4.5 share a colour class and differ in tier. *)
Theorem getScoreClass_partition (s : Q) :
  (getScoreClass s = "score-excellent" ↔ 8.0 <= s) ∧
  (getScoreClass s = "score-good" ↔ 7.0 <= s ∧ s < 8.0) ∧
  (getScoreClass s = "score-fair" ↔ 6.0 <= s ∧ s < 7.0) ∧
  (getScoreClass s = "score-poor" ↔ s < 6.0) ∧
  getScoreClass 5.5 = getScoreClass 4.5 ∧
  classifyScore 5.5 ≠ classifyScore 4.5.
Proof.
  split_and!; try done.
  - rewrite getScoreClass_excellent. split; lra.
  - rewrite getScoreClass_good. split; lra.
  - rewrite getScoreClass_fair. split; lra.
  - rewrite getScoreClass_poor. split; lra.
Qed.

(** C4.  At 6.5 the colour class is fair while the tier is Good (and the
    overall feedback is the text under the key [good]); the class named
    good and the tier named Good are never given to the same score, so one
    mapping does not stand for the other. *)
Theorem fair_and_Good_at_6_5 :
  getScoreClass 6.5 = "score-fair" ∧
  classifyScore 6.5 = Good ∧
  getFeedback 6.5 (Some "overall")
    = Normal (Some "Good performance with noticeable competence, though some inaccuracies are present.") ∧
  ¬ ∃ s, getScoreClass s = "score-good" ∧ classifyScore s = Good.
Proof.
  split_and!; try reflexivity.
  intros (s & Hclass & Htier).
  apply getScoreClass_good in Hclass.
  apply classifyScore_Good in Htier. lra.
Qed.

(** ** The feedback table *)

Lemma categories_own (c : string) :
  c ∈ categories ↔ is_Some (feedbackMap !! c).
Proof.
  unfold categories, feedbackMap. rewrite !elem_of_cons, elem_of_nil.
  rewrite !lookup_insert_is_Some, lookup_empty, is_Some_alt.
  split.
  - intros H. repeat destruct H as [->|H]; [..|done];
      repeat first [ left; reflexivity | right; split; [discriminate|] ].
  - intuition (subst; auto).
Qed.

Lemma classifyScore_sample (t : PerformanceTier) : classifyScore (sample t) = t.
Proof. by destruct t. Qed.

Lemma feedbackMap_categories (c : string) (m : Messages) :
  feedbackMap !! c = Some m →
  c = "overall" ∨ c = "pronunciation" ∨ c = "fluency" ∨ c = "vocabulary"
  ∨ c = "grammar".
Proof.
  intros Hm. assert (c ∈ categories) as Hc by (apply categories_own; eauto).
  unfold categories in Hc. rewrite !elem_of_cons, elem_of_nil in Hc. tauto.
Qed.

(** No text of the table is empty. *)
Lemma feedbackMap_nonempty (c : string) (m : Messages) (t : PerformanceTier) :
  feedbackMap !! c = Some m → field t m ≠ "".
Proof.
  intros Hm.
  destruct (feedbackMap_categories c m Hm) as [->|[->|[->|[->| ->]]]];
    vm_compute in Hm; injection Hm as <-; by destruct t.
Qed.

(** No text of the table stands under two keys. *)
Lemma feedbackMap_specific (c c' : string) (m m' : Messages)
    (t t' : PerformanceTier) :
  feedbackMap !! c = Some m → feedbackMap !! c' = Some m' →
  field t m = field t' m' → c = c' ∧ t = t'.
Proof.
  intros Hm Hm'.
  destruct (feedbackMap_categories c m Hm) as [->|[->|[->|[->| ->]]]];
    vm_compute in Hm; injection Hm as <-;
    destruct (feedbackMap_categories c' m' Hm') as [->|[->|[->|[->| ->]]]];
    vm_compute in Hm'; injection Hm' as <-;
    destruct t, t'; cbn; intros H; first [ done | discriminate H ].
Qed.

Lemma feedbackMap_get_own (c : string) (m : Messages) :
  feedbackMap !! c = Some m → feedbackMap_get c = Own m.
Proof. intros Hm. unfold feedbackMap_get. by rewrite Hm. Qed.

Lemma feedbackMap_get_other (c : string) :
  c ∉ categories →
  feedbackMap_get c
  = if bool_decide (c ∈ Object_prototype) then Inherited else Undefined.
Proof.
  intros Hc. unfold feedbackMap_get.
  destruct (feedbackMap !! c) eqn:Hm; [|done].
  destruct Hc. apply categories_own. eauto.
Qed.

(** C2, as the code has it.  For each of the five categories and each of
    the five tiers, [getFeedback] returns the text of the table under that
    category and the tier of the score; the text is not empty and stands
    under no other pair, and every tier is the tier of some score.  For a
    category outside the five, [getFeedback] throws a [TypeError] unless the
    name is inherited from [Object.prototype]; for an inherited name it
    returns [undefined] and throws nothing. *)
Theorem getFeedback_categories (s : Q) (c : string) :
  (c ∈ categories →
   ∃ m, feedbackMap !! c = Some m ∧
        getFeedback s (Some c) = Normal (Some (field (classifyScore s) m)) ∧
        field (classifyScore s) m ≠ "" ∧
        (∀ c' m' t t', feedbackMap !! c' = Some m' →
           field t m = field t' m' → c = c' ∧ t = t') ∧
        (∀ t, getFeedback (sample t) (Some c) = Normal (Some (field t m)))) ∧
  (c ∉ categories → c ∉ Object_prototype →
   getFeedback s (Some c) = Throw TypeError) ∧
  (c ∉ categories → c ∈ Object_prototype →
   getFeedback s (Some c) = Normal None).
Proof.
  split_and!.
  - intros Hc. apply categories_own in Hc as [m Hm]. exists m.
    split_and!; [done| | | |].
    + rewrite getFeedback_Some.
      by rewrite (feedbackMap_get_own c m).
    + by eapply feedbackMap_nonempty.
    + intros c' m' t t' Hm'. by apply feedbackMap_specific.
    + intros t. rewrite getFeedback_Some, classifyScore_sample.
      by rewrite (feedbackMap_get_own c m).
  - intros Hc Hp. rewrite getFeedback_Some.
    rewrite feedbackMap_get_other by done.
    by rewrite bool_decide_eq_false_2.
  - intros Hc Hp. rewrite getFeedback_Some.
    rewrite feedbackMap_get_other by done.
    by rewrite bool_decide_eq_true_2.
Qed.

Lemma getFeedback_categories_witness :
  (∃ m, feedbackMap !! "grammar" = Some m ∧
        getFeedback 7.5 (Some "grammar")
        = Normal (Some (field (classifyScore 7.5) m))) ∧
  getFeedback 7.5 (Some "unknown") = Throw TypeError ∧
  getFeedback 7.5 (Some "constructor") = Normal None.
Proof.
  destruct (getFeedback_categories 7.5 "grammar") as (H & _ & _).
  destruct (getFeedback_categories 7.5 "unknown") as (_ & Hthrow & _).
  destruct (getFeedback_categories 7.5 "constructor") as (_ & _ & Hundef).
  split_and!.
  - destruct H as (m & Hm & Hf & _); [|by exists m].
    apply (bool_decide_unpack _). vm_compute. exact I.
  - apply Hthrow; apply (bool_decide_unpack _); vm_compute; exact I.
  - apply Hundef; apply (bool_decide_unpack _); vm_compute; exact I.
Defined.

(** C2 as stated fails: [constructor] is not one of the five categories,
    and [getFeedback] returns [undefined] for it instead of failing. *)
Lemma getFeedback_inherited_no_error :
  ("constructor" ∉ categories) ∧
  getFeedback 7.5 (Some "constructor") = Normal None ∧
  ¬ ∃ e, getFeedback 7.5 (Some "constructor") = Throw e.
Proof.
  split_and!.
  - apply (bool_decide_unpack _). vm_compute. exact I.
  - reflexivity.
  - intros [e He]. vm_compute in He. discriminate He.
Qed.

(** C10.  With the second argument omitted the category is [overall]. *)
Theorem getFeedback_default (s : Q) :
  getFeedback s None = getFeedback s (Some "overall").
Proof. reflexivity. Qed.

(** ** Running the statements of the script *)

Lemma bind_Normal {A B} (m : M A) (k : A → M B) (p p' : Page) (a : A) :
  m p = (p', Normal a) → bind m k p = k a p'.
Proof. unfold bind. by intros ->. Qed.

Lemma bind_Throw {A B} (m : M A) (k : A → M B) (p p' : Page) (e : Error) :
  m p = (p', Throw e) → bind m k p = (p', Throw e).
Proof. unfold bind. by intros ->. Qed.

Lemma bind_lift {A B} (c : completion A) (k : A → M B) (p : Page) (a : A) :
  c = Normal a → bind (lift c) k p = k a p.
Proof. by intros ->. Qed.

Lemma set_attribute_run (set : Element → Element) (id : string) (p : Page) :
  is_Some (dom p !! id) →
  set_attribute set id p = (with_dom (alter set id) p, Normal tt).
Proof. intros [el Hel]. unfold set_attribute. by rewrite Hel. Qed.

Lemma bind_set_attribute {B} (set : Element → Element) (id : string)
    (k : unit → M B) (p : Page) :
  is_Some (dom p !! id) →
  bind (set_attribute set id) k p = k tt (with_dom (alter set id) p).
Proof. intros H. by apply bind_Normal, set_attribute_run. Qed.

Lemma bind_getContext {B} (id : string) (k : string → M B) (p : Page) :
  is_Some (dom p !! id) → bind (getContext id) k p = k id p.
Proof.
  intros [el Hel]. apply bind_Normal. unfold getContext. by rewrite Hel.
Qed.

Lemma element_ids_elem (id : string) :
  bool_decide (id ∈ element_ids) = true → id ∈ element_ids.
Proof. apply bool_decide_eq_true_1. Qed.

(** The feedback for a category of the table is a text. *)
Lemma getFeedback_own (s : Q) (c : string) :
  c ∈ categories →
  ∃ msg, getFeedback s (Some c) = Normal (Some msg) ∧ msg ≠ "".
Proof.
  intros Hc. apply categories_own in Hc as [m Hm].
  exists (field (classifyScore s) m). split.
  - rewrite getFeedback_Some. by rewrite (feedbackMap_get_own c m).
  - by eapply feedbackMap_nonempty.
Qed.

(** Presence of an element is not affected by the writes. *)
Ltac present H :=
  cbn [dom with_dom charts console alerts];
  rewrite ?lookup_alter_is_Some;
  apply H; apply element_ids_elem; vm_compute; reflexivity.

Ltac step H :=
  first
    [ rewrite bind_set_attribute by present H
    | rewrite bind_getContext by present H
    | erewrite bind_lift by eassumption ].

Ltac read_element :=
  cbn [dom with_dom charts console alerts];
  repeat first [ rewrite lookup_alter_eq | rewrite lookup_alter_ne by done ].

Section Run.
Variable Number_toString : Q → string.

Lemma createCharts_run (skills : Skills) (p : Page) :
  is_Some (dom p !! "radarChart") → is_Some (dom p !! "barChart") →
  createCharts skills p
  = ({| dom := dom p;
        charts := charts p ++
          [ {| canvas := "radarChart"; chart_type := "radar";
               labels := skillLabels; dataset_label := "Skills Assessment";
               data := skillValues skills; scale_max := 9 |};
            {| canvas := "barChart"; chart_type := "bar";
               labels := skillLabels; dataset_label := "Score";
               data := skillValues skills; scale_max := 9 |} ];
        console := console p; alerts := alerts p |}, Normal tt).
Proof.
  intros Hradar Hbar. unfold createCharts.
  rewrite bind_getContext by done.
  unfold bind at 1, new_Chart at 1.
  rewrite bind_getContext by done.
  unfold new_Chart. cbn. by rewrite <- app_assoc.
Qed.

(** What [displayStudentData] leaves on a complete page: every statement
    finds its element, nothing is thrown, and each element reads what the
    script wrote to it last. *)
Lemma displayStudentData_run (data : Data) (p : Page) :
  complete p →
  ∃ p' overallText pronText fluencyText vocabText grammarText,
    displayStudentData Number_toString data p = (p', Normal tt) ∧
    getFeedback (overallScore data) (Some "overall")
      = Normal (Some overallText) ∧
    getFeedback (pronunciation (skills data)) (Some "pronunciation")
      = Normal (Some pronText) ∧
    getFeedback (fluency (skills data)) (Some "fluency")
      = Normal (Some fluencyText) ∧
    getFeedback (vocabulary (skills data)) (Some "vocabulary")
      = Normal (Some vocabText) ∧
    getFeedback (grammar (skills data)) (Some "grammar")
      = Normal (Some grammarText) ∧
    shows p' "studentName" textContent (studentName data) ∧
    shows p' "testDate" textContent (testDate data) ∧
    shows p' "overallScore" textContent (toFixed Number_toString (overallScore data) 1) ∧
    shows p' "overallScore" className
      ("score-value " +:+ getScoreClass (overallScore data)) ∧
    shows p' "overallDescription" textContent overallText ∧
    shows p' "overallFeedback" textContent overallText ∧
    shows p' "pronunciationScore" textContent
      (toFixed Number_toString (pronunciation (skills data)) 1) ∧
    shows p' "pronunciationScore" className
      ("skill-score " +:+ getScoreClass (pronunciation (skills data))) ∧
    shows p' "pronunciationProgress" style_width
      (Some (percentage (pronunciation (skills data)))) ∧
    shows p' "pronunciationFeedback" textContent pronText ∧
    shows p' "fluencyScore" textContent (toFixed Number_toString (fluency (skills data)) 1) ∧
    shows p' "fluencyScore" className
      ("skill-score " +:+ getScoreClass (fluency (skills data))) ∧
    shows p' "fluencyProgress" style_width
      (Some (percentage (fluency (skills data)))) ∧
    shows p' "fluencyFeedback" textContent fluencyText ∧
    shows p' "vocabularyScore" textContent
      (toFixed Number_toString (vocabulary (skills data)) 1) ∧
    shows p' "vocabularyScore" className
      ("skill-score " +:+ getScoreClass (vocabulary (skills data))) ∧
    shows p' "vocabularyProgress" style_width
      (Some (percentage (vocabulary (skills data)))) ∧
    shows p' "vocabularyFeedback" textContent vocabText ∧
    shows p' "grammarScore" textContent (toFixed Number_toString (grammar (skills data)) 1) ∧
    shows p' "grammarScore" className
      ("skill-score " +:+ getScoreClass (grammar (skills data))) ∧
    shows p' "grammarProgress" style_width
      (Some (percentage (grammar (skills data)))) ∧
    shows p' "grammarFeedback" textContent grammarText ∧
    charts p' = charts p ++
      [ {| canvas := "radarChart"; chart_type := "radar";
           labels := skillLabels; dataset_label := "Skills Assessment";
           data := skillValues (skills data); scale_max := 9 |};
        {| canvas := "barChart"; chart_type := "bar";
           labels := skillLabels; dataset_label := "Score";
           data := skillValues (skills data); scale_max := 9 |} ] ∧
    console p' = console p ∧
    alerts p' = alerts p.
Proof.
  intros Hp.
  destruct (getFeedback_own (overallScore data) "overall")
    as (overallText & Hoverall & _); [set_solver|].
  destruct (getFeedback_own (pronunciation (skills data)) "pronunciation")
    as (pronText & Hpron & _); [set_solver|].
  destruct (getFeedback_own (fluency (skills data)) "fluency")
    as (fluencyText & Hfluency & _); [set_solver|].
  destruct (getFeedback_own (vocabulary (skills data)) "vocabulary")
    as (vocabText & Hvocab & _); [set_solver|].
  destruct (getFeedback_own (grammar (skills data)) "grammar")
    as (grammarText & Hgrammar & _); [set_solver|].
  eexists _, overallText, pronText, fluencyText, vocabText, grammarText.
  split.
  { unfold displayStudentData, set_textContent, set_className,
      updateProgressBar.
    repeat step Hp.
    rewrite createCharts_run by present Hp.
    reflexivity. }
  split_and!; try done; unfold shows; read_element.
  all: try match goal with
    | |- context [ dom _ !! ?id ] =>
        let el := fresh "el" in let Hel := fresh "Hel" in
        destruct (Hp id) as [el Hel];
        [ apply element_ids_elem; vm_compute; reflexivity
        | rewrite Hel; reflexivity ]
    end.
Qed.

End Run.

(** ** The view model of the sample record *)

Lemma blank_page_complete : complete blank_page.
Proof.
  intros id Hid. unfold element_ids in Hid.
  repeat (apply elem_of_cons in Hid as [->|Hid]);
    [..|by apply elem_of_nil in Hid]; vm_compute; eauto.
Qed.

Section ViewModel.
Variable Number_toString : Q → string.


(** C6.  On a page that has the elements of the script,
    [displayStudentData] creates two charts, a radar chart and a bar chart,
    and each plots the four pairs (Pronunciation, Fluency, Vocabulary,
    Grammar, in this order) with the scores of the record under the same
    names. *)
Theorem chart_series (data : Data) (p : Page) :
  complete p →
  ∃ p' radar bar,
    displayStudentData Number_toString data p = (p', Normal tt) ∧
    charts p' = charts p ++ [radar; bar] ∧
    chart_type radar = "radar" ∧ chart_type bar = "bar" ∧
    series radar = series bar ∧
    series bar
    = [ ("Pronunciation", pronunciation (skills data));
        ("Fluency", fluency (skills data));
        ("Vocabulary", vocabulary (skills data));
        ("Grammar", grammar (skills data)) ].
Proof.
  intros Hp.
  destruct (displayStudentData_run Number_toString data p Hp)
    as (p' & ? & ? & ? & ? & ? & Hrun & H).
  do 27 (destruct H as (_ & H)).
  destruct H as (Hcharts & _).
  by eexists p', _, _.
Qed.

(** C7.  When the fetch gives a retrieval error (the request is rejected,
    the status is outside 200-299, or the body does not parse),
    [loadStudentData] logs that error, shows one alert, and leaves the
    elements and the charts of the page as they were: nothing of
    [displayStudentData] has run.  The endpoint answers with status 500
    when [data.json] cannot be read or parsed, and a response with that
    status is such an error. *)
Theorem retrieval_failure (fetched : Fetched) (error : Error) (p : Page) :
  retrieval_error fetched = Some error →
  loadStudentData Number_toString fetched p
  = ({| dom := dom p; charts := charts p;
        console := console p ++ [("Error loading student data:", error)];
        alerts := alerts p ++
          ["Failed to load student data. Please make sure the server is running on port 3000."] |},
     Normal tt) ∧
  (∀ (J : Type) (JSON_parse : string → Server.outcome J) readFileSync,
     let reply := Server.student_report JSON_parse readFileSync in
     (∀ data studentData, readFileSync = Server.returned data →
        JSON_parse data ≠ Server.returned studentData) →
     Server.status reply = 500%nat ∧
     ∀ response, status response = Server.status reply →
       retrieval_error (fulfilled response)
       = Some (Error_ "Failed to fetch data")).
Proof.
  intros Herr. split.
  - unfold loadStudentData, try_catch, retrieval_error in *.
    destruct fetched as [response|reason]; cbn in *.
    + destruct (ok response); cbn in *.
      * destruct (json response); [done|]. by injection Herr as ->.
      * by injection Herr as <-.
    + by injection Herr as ->.
  - intros J JSON_parse readFileSync reply Hfail.
    assert (Server.status reply = 500%nat) as Hstatus.
    { unfold reply, Server.student_report.
      destruct readFileSync as [data|message]; [|done].
      destruct (JSON_parse data) as [studentData|message] eqn:Hparse; [|done].
      by destruct (Hfail data studentData). }
    split; [done|]. intros response Hresponse.
    unfold retrieval_error, ok. rewrite Hresponse, Hstatus.
    by rewrite bool_decide_eq_false_2 by lia.
Qed.


End ViewModel.


Lemma chart_series_witness :
  complete blank_page ∧
  ∃ p' radar bar,
    displayStudentData no_exponent
      {| studentId := "STU001"; studentName := "John Doe";
         testDate := "2024-12-20"; overallScore := 7.5;
         skills := {| pronunciation := 8.0; fluency := 7.5;
                      vocabulary := 7.0; grammar := 7.5 |} |} blank_page
    = (p', Normal tt) ∧
    charts p' = charts blank_page ++ [radar; bar] ∧
    chart_type radar = "radar" ∧ chart_type bar = "bar" ∧
    series radar = series bar ∧
    series bar
    = [ ("Pronunciation", 8.0); ("Fluency", 7.5);
        ("Vocabulary", 7.0); ("Grammar", 7.5) ].
Proof.
  split; [exact blank_page_complete|].
  exact (chart_series no_exponent _ blank_page blank_page_complete).
Defined.

Lemma retrieval_failure_witness :
  retrieval_error
    (fulfilled {| status := 500; json := Throw SyntaxError |})
  = Some (Error_ "Failed to fetch data") ∧
  loadStudentData no_exponent
    (fulfilled {| status := 500; json := Throw SyntaxError |}) blank_page
  = ({| dom := dom blank_page; charts := [];
        console := [("Error loading student data:",
                     Error_ "Failed to fetch data")];
        alerts :=
          ["Failed to load student data. Please make sure the server is running on port 3000."] |},
     Normal tt).
Proof.
  split; [reflexivity|].
  exact (proj1 (retrieval_failure no_exponent
                  (fulfilled {| status := 500; json := Throw SyntaxError |})
                  (Error_ "Failed to fetch data") blank_page eq_refl)).
Defined.


(** ** Formatting a score and reading it back *)

(** Strings. *)

Lemma append_cons (x : ascii) (a b : string) :
  String x a +:+ b = String x (a +:+ b).
Proof. reflexivity. Qed.

Lemma append_empty (b : string) : "" +:+ b = b.
Proof. reflexivity. Qed.

Lemma append_assoc (a b c : string) : (a +:+ b) +:+ c = a +:+ (b +:+ c).
Proof.
  induction a as [|x a IH]; [done|]. rewrite !append_cons. by f_equal.
Qed.

Lemma length_append (a b : string) :
  String.length (a +:+ b) = (String.length a + String.length b)%nat.
Proof.
  induction a as [|x a IH]; [done|]. rewrite append_cons. simpl. by f_equal.
Qed.

Lemma substring_prefix (a b : string) :
  String.substring 0 (String.length a) (a +:+ b) = a.
Proof.
  induction a as [|x a IH].
  - rewrite append_empty. by destruct b.
  - rewrite append_cons. simpl. by f_equal.
Qed.

Lemma substring_suffix (a b : string) :
  String.substring (String.length a) (String.length b) (a +:+ b) = b.
Proof.
  induction a as [|x a IH]; [|by rewrite append_cons].
  rewrite append_empty. simpl.
  induction b as [|y b IHb]; simpl; [done|]. by f_equal.
Qed.

(** Decimal digits. *)

Lemma pretty_N_char_digit (d : N) :
  (d < 10)%N → digit (pretty_N_char d) = Some d.
Proof.
  intros Hd.
  assert (d = 0 ∨ d = 1 ∨ d = 2 ∨ d = 3 ∨ d = 4 ∨ d = 5 ∨ d = 6 ∨ d = 7
          ∨ d = 8 ∨ d = 9)%N as H by lia.
  repeat destruct H as [->|H]; try subst d; reflexivity.
Qed.



Lemma pretty_N_go_append (x : N) (s : string) :
  pretty_N_go x s = pretty_N_go x "" +:+ s.
Proof.
  revert s. induction (N.lt_wf_0 x) as [x _ IH]. intros s.
  destruct (decide (x = 0)%N) as [->|Hx]; [done|].
  rewrite (pretty_N_go_step x s), (pretty_N_go_step x "") by lia.
  assert (x `div` 10 < x)%N as Hlt by (apply N.div_lt; lia).
  rewrite (IH _ Hlt (String _ s)), (IH _ Hlt (String _ "")).
  by rewrite append_assoc.
Qed.

(** The decimal representation of a positive number ends with its last
    digit, after the representation of the tens. *)
Lemma pretty_N_snoc (n : N) :
  (10 ≤ n)%N →
  pretty n = pretty (n `div` 10)%N
             +:+ String (pretty_N_char (n `mod` 10)) "".
Proof.
  intros Hn. unfold pretty, pretty_N.
  assert (n `div` 10 ≠ 0)%N.
  { intros H0. apply N.div_small_iff in H0; lia. }
  rewrite !decide_False by lia.
  rewrite pretty_N_go_step by lia. apply pretty_N_go_append.
Qed.

Lemma pretty_N_one_digit (n : N) :
  (n < 10)%N → pretty n = String (pretty_N_char n) "".
Proof.
  intros Hn.
  assert (n = 0 ∨ n = 1 ∨ n = 2 ∨ n = 3 ∨ n = 4 ∨ n = 5 ∨ n = 6 ∨ n = 7
          ∨ n = 8 ∨ n = 9)%N as H by lia.
  repeat destruct H as [->|H]; try subst n; reflexivity.
Qed.

(** It starts with a digit. *)
Lemma pretty_N_head (n : N) :
  ∃ c d r, pretty n = String c r ∧ digit c = Some d.
Proof.
  induction (N.lt_wf_0 n) as [n _ IH].
  destruct (decide (n < 10)%N) as [Hn|Hn].
  - exists (pretty_N_char n), n, "". split.
    + by apply pretty_N_one_digit.
    + by apply pretty_N_char_digit.
  - destruct (IH (n `div` 10)%N) as (c & d & r & Hr & Hc).
    { apply N.div_lt; lia. }
    exists c, d, (r +:+ String (pretty_N_char (n `mod` 10)) ""). split; [|done].
    rewrite pretty_N_snoc by lia. by rewrite Hr.
Qed.

Lemma fixed_digits_1 (n : N) :
  fixed_digits n 1
  = pretty (n `div` 10)%N +:+ "." +:+ String (pretty_N_char (n `mod` 10)) "".
Proof.
  unfold fixed_digits. rewrite decide_False by done.
  destruct (decide (n < 10)%N) as [Hn|Hn].
  - rewrite N.div_small, N.mod_small by done.
    rewrite pretty_N_one_digit by done. reflexivity.
  - rewrite (pretty_N_snoc n) by lia.
    set (a := pretty (n `div` 10)%N). set (b := String _ "").
    destruct (pretty_N_head (n `div` 10)%N) as (c & d & r & Hr & _).
    assert (String.length (a +:+ b) = S (String.length a)) as Hlen.
    { rewrite length_append. cbn. lia. }
    assert (1 ≤ String.length a)%nat.
    { unfold a. rewrite Hr. cbn. lia. }
    rewrite Hlen, !decide_False by lia.
    replace (S (String.length a) - 1)%nat with (String.length a) by lia.
    rewrite substring_prefix.
    pose proof (substring_suffix a b) as Hb.
    change (String.length b) with 1%nat in Hb. by rewrite Hb.
Qed.

(** Reading the digits back. *)









(** Rounding to tenths. *)

(** Divisions by the constants of the script, as multiplications. *)
Ltac constants :=
  unfold Qdiv in *;
  change (inject_Z (10 ^ Z.of_nat 1)) with 10 in *;
  change (inject_Z 10) with 10 in *;
  change (inject_Z 1) with 1 in *;
  change (/ 2) with (1 # 2) in *;
  change (/ 10) with (1 # 10) in *;
  change (/ 20) with (1 # 20) in *.


(** [nearest] is the integer of step 11.a: no integer [m] has [m / 10^f]
    closer to [x], and one that is as close is smaller. *)
Lemma nearest_closest (x : Q) (f : nat) (m : Z) :
  0 <= x →
  let y := x * inject_Z (10 ^ Z.of_nat f) in
  let n := Z.of_N (nearest x f) in
  Qabs (inject_Z n - y) <= Qabs (inject_Z m - y) ∧
  (Qabs (inject_Z m - y) <= Qabs (inject_Z n - y) → (m <= n)%Z).
Proof.
  intros Hx y n.
  assert (0 <= y) as Hy.
  { apply Qmult_le_0_compat; [done|].
    change 0 with (inject_Z 0). rewrite <- Zle_Qle. lia. }
  unfold n, nearest. fold y.
  pose proof (Qfloor_le (y + 1 / 2)) as Hle.
  pose proof (Qlt_floor (y + 1 / 2)) as Hlt.
  assert (0 <= Qfloor (y + 1 / 2))%Z as Hpos.
  { apply (Qfloor_resp_le 0). change (1 / 2) with (1 # 2). lra. }
  rewrite Z2N.id by done.
  set (z := Qfloor (y + 1 / 2)) in *.
  rewrite inject_Z_plus in Hlt.
  change (inject_Z 1) with 1 in Hlt. change (1 / 2) with (1 # 2) in *.
  assert (Qabs (inject_Z z - y) <= 1 # 2) as Hn.
  { apply Qabs_Qle_condition. lra. }
  pose proof (Qle_Qabs (inject_Z m - y)) as Hup.
  pose proof (Qle_Qabs (- (inject_Z m - y))) as Hdown.
  rewrite Qabs_opp in Hdown.
  destruct (Z.lt_trichotomy m z) as [Hm|[->|Hm]].
  - assert (inject_Z (m + 1) <= inject_Z z) as H by (rewrite <- Zle_Qle; lia).
    rewrite inject_Z_plus in H. change (inject_Z 1) with 1 in H.
    split; [lra|lia].
  - split; [lra|lia].
  - assert (inject_Z (z + 1) <= inject_Z m) as H by (rewrite <- Zle_Qle; lia).
    rewrite inject_Z_plus in H. change (inject_Z 1) with 1 in H.
    split; [lra|]. intros Hclose. lra.
Qed.

Lemma nearest_1_value (x : Q) :
  0 <= x →
  let v := inject_Z (Z.of_N (nearest x 1)) / inject_Z 10 in
  v - x <= 1 / 20 ∧ x - v < 1 / 20.
Proof.
  intros Hx. unfold nearest.
  assert (0 <= Qfloor (x * inject_Z (10 ^ Z.of_nat 1) + 1 / 2))%Z as Hpos.
  { apply (Qfloor_resp_le 0). constants. lra. }
  rewrite Z2N.id by done.
  pose proof (Qfloor_le (x * inject_Z (10 ^ Z.of_nat 1) + 1 / 2)) as Hf.
  pose proof (Qlt_floor (x * inject_Z (10 ^ Z.of_nat 1) + 1 / 2)) as Hf'.
  rewrite inject_Z_plus in Hf'. cbv zeta. constants. lra.
Qed.



Lemma geb_Qeq (x y z : Q) : x == y → (x >=? z) = (y >=? z).
Proof. intros H. unfold geb. by rewrite H. Qed.


Section RoundTrip.
Variable Number_toString : Q → string.

Lemma toFixed_nonneg (x : Q) :
  0 <= x → x < 10 ^ 21 →
  toFixed Number_toString x 1 = fixed_digits (nearest x 1) 1.
Proof.
  intros H0 H21. unfold toFixed.
  apply ltb_false in H0. apply geb_false in H21. by rewrite H0, H21.
Qed.





End RoundTrip.



(** * Further properties of the script and of the endpoint *)

(** ** Tiers and colours together *)

(** X1.  The colour class is a function of the tier: Excellent scores are
    coloured excellent, VeryGood good, Good fair, and both Moderate and
    NeedsImprovement poor. *)
Theorem getScoreClass_class_of (s : Q) :
  getScoreClass s = class_of (classifyScore s).
Proof.
  unfold getScoreClass, classifyScore.
  thresholds; first [ reflexivity | lra ].
Qed.

(** X2.  A higher score never gets a worse tier. *)
Theorem classifyScore_monotone (s s' : Q) :
  s <= s' → (rank (classifyScore s) ≤ rank (classifyScore s'))%nat.
Proof.
  intros Hs. unfold classifyScore.
  thresholds; cbn; first [ lia | lra ].
Qed.

Lemma classifyScore_monotone_witness :
  6.5 <= 8.25 ∧ (rank (classifyScore 6.5) ≤ rank (classifyScore 8.25))%nat.
Proof.
  assert (6.5 <= 8.25) as H by (vm_compute; discriminate).
  split; [exact H|]. exact (classifyScore_monotone 6.5 8.25 H).
Defined.

(** ** Progress bars *)



(** ** What the statements need and what they leave alone *)

Ltac page := cbn [fst snd dom with_dom charts console alerts] in *.

Lemma frame_refl (ids : list string) (p : Page) : frame ids p p.
Proof. split_and!; try done. exists []. by rewrite app_nil_r. Qed.




Lemma behaves_ret {A} (a : A) : behaves [] [] (ret a).
Proof. intros p. split; [apply frame_refl|]. page. by intros id ?%elem_of_nil. Qed.










Section Behaviour.
Variable Number_toString : Q → string.








End Behaviour.

Lemma createCharts_no_radar (skills : Skills) (p : Page) :
  dom p !! "radarChart" = None →
  createCharts skills p = (p, Throw TypeError).
Proof.
  intros Hradar. unfold createCharts.
  apply bind_Throw. unfold getContext. by rewrite Hradar.
Qed.

Lemma createCharts_no_bar (skills : Skills) (p : Page) :
  is_Some (dom p !! "radarChart") → dom p !! "barChart" = None →
  createCharts skills p
  = ({| dom := dom p; charts := charts p ++ [radar_chart skills];
        console := console p; alerts := alerts p |}, Throw TypeError).
Proof.
  intros Hradar Hbar. unfold createCharts.
  rewrite bind_getContext by done.
  unfold bind at 1, new_Chart at 1.
  apply bind_Throw. unfold getContext. page. by rewrite Hbar.
Qed.

(** X7.  [createCharts] without the radar canvas throws before it creates
    a chart.  With the radar canvas and without the bar canvas it throws
    after the radar chart has been created, which stays on the page. *)
Theorem createCharts_partial (skills : Skills) (p : Page) :
  (dom p !! "radarChart" = None →
   createCharts skills p = (p, Throw TypeError)) ∧
  (is_Some (dom p !! "radarChart") → dom p !! "barChart" = None →
   createCharts skills p
   = ({| dom := dom p; charts := charts p ++ [radar_chart skills];
         console := console p; alerts := alerts p |}, Throw TypeError)).
Proof.
  split; [apply createCharts_no_radar | apply createCharts_no_bar].
Qed.

(** ** Texts first, charts last *)




Section Texts.
Variable Number_toString : Q → string.


End Texts.


Section Render.
Variable Number_toString : Q → string.





End Render.

(** ** The endpoint *)


(** ** The display of a score of the domain *)

(** X12.  A score between 0 and 9 is displayed with three characters, a
    digit, a point and a digit; the two digits are those of the number of
    tenths nearest to the score, which is at most 90, so that the display
    never goes beyond "9.0". *)
Theorem toFixed_in_domain (Number_toString : Q → string) (s : Q) :
  0 <= s → s <= 9 →
  ∃ a b : N,
    (a ≤ 9)%N ∧ (b ≤ 9)%N ∧ (10 * a + b ≤ 90)%N ∧
    nearest s 1 = (10 * a + b)%N ∧
    toFixed Number_toString s 1
    = String (pretty_N_char a)
        (String "."%char (String (pretty_N_char b) "")).
Proof.
  intros H0 H9.
  assert (9 < 10 ^ 21) as Hbig by reflexivity.
  rewrite toFixed_nonneg by lra.
  destruct (nearest_1_value s H0) as [Hle _].
  set (n := nearest s 1) in *. cbv zeta in Hle.
  assert (n ≤ 90)%N as Hn.
  { assert (inject_Z (Z.of_N n) < inject_Z 91) as H.
    { constants. change (inject_Z 91) with 91. lra. }
    rewrite <- Zlt_Qlt in H. lia. }
  exists (n `div` 10)%N, (n `mod` 10)%N.
  assert (n `div` 10 ≤ 9)%N as Ha.
  { apply N.lt_succ_r. apply N.Div0.div_lt_upper_bound. lia. }
  pose proof (N.mod_lt n 10 ltac:(lia)) as Hb.
  pose proof (N.div_mod n 10 ltac:(lia)) as Hdiv.
  split_and!; [done|lia|lia|lia|].
  rewrite fixed_digits_1, pretty_N_one_digit by lia. reflexivity.
Qed.

Lemma toFixed_in_domain_witness :
  0 <= 8.25 ∧ 8.25 <= 9 ∧
  ∃ a b : N,
    (a ≤ 9)%N ∧ (b ≤ 9)%N ∧ (10 * a + b ≤ 90)%N ∧
    nearest 8.25 1 = (10 * a + b)%N ∧
    toFixed no_exponent 8.25 1
    = String (pretty_N_char a)
        (String "."%char (String (pretty_N_char b) "")).
Proof.
  assert (0 <= 8.25) as H0 by (vm_compute; discriminate).
  assert (8.25 <= 9) as H9 by (vm_compute; discriminate).
  split; [exact H0|]. split; [exact H9|].
  exact (toFixed_in_domain no_exponent 8.25 H0 H9).
Defined.

(** ** Instances *)

Lemma createCharts_partial_witness :
  dom (with_dom (delete "radarChart") blank_page) !! "radarChart" = None ∧
  createCharts (skills john_doe) (with_dom (delete "radarChart") blank_page)
  = (with_dom (delete "radarChart") blank_page, Throw TypeError) ∧
  is_Some (dom (with_dom (delete "barChart") blank_page) !! "radarChart") ∧
  dom (with_dom (delete "barChart") blank_page) !! "barChart" = None ∧
  createCharts (skills john_doe) (with_dom (delete "barChart") blank_page)
  = ({| dom := dom (with_dom (delete "barChart") blank_page);
        charts := [radar_chart (skills john_doe)];
        console := []; alerts := [] |}, Throw TypeError).
Proof.
  assert (dom (with_dom (delete "radarChart") blank_page) !! "radarChart"
          = None) as Hnone by (vm_compute; reflexivity).
  assert (is_Some (dom (with_dom (delete "barChart") blank_page)
                     !! "radarChart")) as Hradar by (vm_compute; eauto).
  assert (dom (with_dom (delete "barChart") blank_page) !! "barChart" = None)
    as Hbar by (vm_compute; reflexivity).
  split; [exact Hnone|].
  split; [exact (proj1 (createCharts_partial _ _) Hnone)|].
  split; [exact Hradar|]. split; [exact Hbar|].
  exact (proj2 (createCharts_partial (skills john_doe) _) Hradar Hbar).
Defined.




